(** * Pricing calculator form: derived values, tariff reset rule, data loader

    A shallow embedding of the [<script setup>] block of the calculator
    form component and of the data types in [shared/types/index.ts].

    Modelling conventions.
    - A JavaScript [number] holding a price, a rate or an amount is an
      IEEE 754 binary64 value: Rocq's primitive [float], whose
      multiplication is the one JavaScript performs.
    - A [number] used as an identifier ([id], [tariffId],
      [paymentOptionId]) is an integer, [Z]; NaN and fractional
      identifiers are outside the model.
    - [T | null] is [option T].  A value that may be [undefined] where a
      number is expected (the exchange rate) has its own type [jsnum].
    - [conversion_rates : Record<string, number>] is a [gmap string float];
      inherited properties of the JavaScript object are outside the model.
    - Code that may throw, and code that writes reactive state, runs in
      the monad [M]: component state in, completion, new state and the
      list of writes out. *)

From Stdlib Require Import ZArith Bool List Floats.
From stdpp Require Import base option list strings gmap.

Set Warnings "-inexact-float".
Local Open Scope Z_scope.

(** ** JavaScript values *)

Module JS.

(** Truthiness ([ToBoolean]) of the value kinds the component tests with
    [!], [&&] and [? :]. *)

Definition truthy_float (x : float) : bool :=
  negb (PrimFloat.is_nan x || PrimFloat.is_zero x).

Definition truthy_id (i : option Z) : bool :=
  match i with
  | None => false
  | Some z => negb (z =? 0)
  end.

Definition truthy_string (s : option string) : bool :=
  match s with
  | None => false
  | Some s => negb (String.eqb s "")
  end.

(** [number | undefined]: what a property read on a rates record gives. *)
Inductive jsnum :=
| Undefined
| Num (x : float).

Definition truthy_num (v : jsnum) : bool :=
  match v with
  | Undefined => false
  | Num x => truthy_float x
  end.

(** [ToNumber], applied by [*] to its operands. *)
Definition toNumber (v : jsnum) : float :=
  match v with
  | Undefined => nan
  | Num x => x
  end.

(** [a * b] with [a] a number and [b] a number or [undefined]. *)
Definition mul (a : float) (b : jsnum) : float :=
  (a * toNumber b)%float.

(** [number | string | null]: the value of an [&&] chain over the form
    fields. *)
Inductive jsval :=
| VNull
| VNumber (z : Z)
| VString (s : string).

Definition truthy (v : jsval) : bool :=
  match v with
  | VNull => false
  | VNumber z => negb (z =? 0)
  | VString s => negb (String.eqb s "")
  end.

(** [a && b] *)
Definition and_then (a b : jsval) : jsval :=
  if truthy a then b else a.

Definition of_id (i : option Z) : jsval :=
  match i with
  | None => VNull
  | Some z => VNumber z
  end.

Definition of_string (s : option string) : jsval :=
  match s with
  | None => VNull
  | Some s => VString s
  end.

(** [number === (number | null)] and [number == (number | null)]: on
    these two types the loose comparison performs no coercion, so both
    are the same test. *)
Definition id_eq (a : Z) (b : option Z) : bool :=
  match b with
  | None => false
  | Some z => a =? z
  end.

(** [string === (string | undefined)] *)
Definition string_eq (a : string) (b : option string) : bool :=
  match b with
  | None => false
  | Some s => String.eqb a s
  end.

(** *** [Number.prototype.toFixed(2)] followed by unary [+]

    The strings [toFixed(2)] can produce, by the case of the algorithm
    that produces them. *)
Inductive fixedString :=
| SNaN                             (* "NaN" *)
| SInfinity (neg : bool)           (* "Infinity", "-Infinity" *)
| SToString (x : float)            (* |x| >= 1e21: ToString(x) *)
| SDigits (neg : bool) (n : Z).    (* sign, digits of n with a point
                                      before the last two *)

(** The integer [n] for which [n / 100 - |x|] is closest to zero, the
    larger one when two are equally close; [x = m * 2^e] exactly. *)
Definition scaled100 (s : spec_float) : Z :=
  match s with
  | S754_finite _ m e =>
      if 0 <=? e then 100 * Z.pos m * 2 ^ e
      else (200 * Z.pos m + 2 ^ (- e)) / (2 * 2 ^ (- e))
  | _ => 0
  end.

Definition toFixed2 (x : float) : fixedString :=
  if PrimFloat.is_nan x then SNaN
  else if PrimFloat.is_infinity x then SInfinity (x <? 0)%float
  else if (1e21 <=? abs x)%float then SToString x
  else SDigits (x <? 0)%float (scaled100 (Prim2SF x)).

Definition digits_to_spec (neg : bool) (n : Z) : spec_float :=
  match n with
  | Z.pos p => S754_finite neg p 0
  | _ => S754_zero neg
  end.

(** Unary [+] on such a string: the binary64 value nearest to the decimal
    it denotes ([ToString] round-trips). *)
Definition parseNumber (s : fixedString) : float :=
  match s with
  | SNaN => nan
  | SInfinity neg => if neg then neg_infinity else infinity
  | SToString x => x
  | SDigits neg n =>
      SF2Prim (SFdiv prec emax (digits_to_spec neg n) (S754_finite false 100 0))
  end.

(** [+x.toFixed(2)] *)
Definition round2 (x : float) : float := parseNumber (toFixed2 x).

(** A number that is neither NaN nor an infinity. *)
Definition finiteNumber (x : float) : bool :=
  match Prim2SF x with
  | S754_zero _ | S754_finite _ _ _ => true
  | _ => false
  end.

End JS.

(** ** Data model ([shared/types/index.ts] and the component's own types) *)

(** [IFormValues]; [currency] is a key of the [Currency] enumeration. *)
Record IFormValues := {
  tariffId : option Z;
  currency : option string;
  paymentOptionId : option Z;
}.

(** The elements of [exchangeRates]: [base_code] and [conversion_rates],
    the two fields the component reads. *)
Record IExchangeData := {
  base_code : string;
  conversion_rates : gmap string float;
}.

(** What a [try] block or a callback can throw. *)
Inductive exn :=
| TypeError
| Rejection (reason : string).

Inductive completion (A : Type) :=
| Normal (a : A)
| Throw (e : exn).
Arguments Normal {A} a.
Arguments Throw {A} e.

(** Writes to reactive state and to the console, in program order. *)
Inductive write :=
| WTariffs
| WExchangeRates
| WIsLoading (b : bool)
| WTariffId (i : option Z)
| WCurrency (c : option string)
| WPaymentOptionId (i : option Z)
| WConsoleError (e : exn).

Section Calculator.

(** The enumerations of [shared/enums] are not part of the sources at
    hand: the component is modelled for any two such types. *)
Variables (Currency PaymentPeriod : Type).

Record IPaymentOption := {
  option_id : Z;
  basePrice : float;
  paymentPeriod : PaymentPeriod;
}.

Record ITariff := {
  tariff_id : Z;
  name : string;
  paymentOptions : list IPaymentOption;
  baseCurrency : Currency;
}.

(** The [ref]s of the component. *)
Record Component := {
  tariffs : list ITariff;
  exchangeRates : list IExchangeData;
  isLoading : bool;
  formValues : IFormValues;
}.

Definition initial : Component := {|
  tariffs := [];
  exchangeRates := [];
  isLoading := true;
  formValues := {| tariffId := None; currency := None; paymentOptionId := None |};
|}.

(** The helpers of [shared/utils], taken as parameters.
    [tickerFromCurrency] gives a key of the enumeration or nothing
    ([None] stands for [undefined]); [getDiscountForOption] gives a number
    or [undefined]. *)
Variable tickerFromCurrency : Currency -> option string.
Variable getDiscountForOption : list IPaymentOption -> Z -> JS.jsnum.

(** *** The monad of effectful component code *)

Definition M (A : Type) : Type :=
  Component -> completion A * Component * list write.

Definition ret {A} (a : A) : M A := fun st => (Normal a, st, []).

Definition bind {A B} (m : M A) (k : A -> M B) : M B := fun st =>
  match m st with
  | (Normal a, st1, w1) =>
      match k a st1 with
      | (c, st2, w2) => (c, st2, w1 ++ w2)
      end
  | (Throw e, st1, w1) => (Throw e, st1, w1)
  end.

Definition throw {A} (e : exn) : M A := fun st => (Throw e, st, []).

Definition get : M Component := fun st => (Normal st, st, []).

(** [try { body } catch (error) { handler } finally { final }] *)
Definition try_catch_finally {A} (body : M A) (handler : exn -> M A)
    (final : M unit) : M A := fun st =>
  let '(c1, st1, w1) :=
    match body st with
    | (Normal a, st1, w1) => (Normal a, st1, w1)
    | (Throw e, st1, w1) =>
        match handler e st1 with
        | (c, st2, w2) => (c, st2, w1 ++ w2)
        end
    end in
  match final st1 with
  | (Normal _, st2, w2) => (c1, st2, w1 ++ w2)
  | (Throw e, st2, w2) => (Throw e, st2, w1 ++ w2)
  end.

Notation "'let*' x ':=' m 'in' k" := (bind m (fun x => k))
  (at level 10, x pattern, m at level 100, k at level 200, only parsing).

(** Assignments to the [ref]s. *)
Definition set_tariffs (ts : list ITariff) : M unit := fun st =>
  (Normal tt,
   {| tariffs := ts; exchangeRates := exchangeRates st;
      isLoading := isLoading st; formValues := formValues st |},
   [WTariffs]).

Definition set_exchangeRates (rs : list IExchangeData) : M unit := fun st =>
  (Normal tt,
   {| tariffs := tariffs st; exchangeRates := rs;
      isLoading := isLoading st; formValues := formValues st |},
   [WExchangeRates]).

Definition set_isLoading (b : bool) : M unit := fun st =>
  (Normal tt,
   {| tariffs := tariffs st; exchangeRates := exchangeRates st;
      isLoading := b; formValues := formValues st |},
   [WIsLoading b]).

Definition set_formValues (f : IFormValues -> IFormValues) (w : write) : M unit :=
  fun st =>
  (Normal tt,
   {| tariffs := tariffs st; exchangeRates := exchangeRates st;
      isLoading := isLoading st; formValues := f (formValues st) |},
   [w]).

Definition set_tariffId (i : option Z) : M unit :=
  set_formValues (fun fv =>
    {| tariffId := i; currency := currency fv;
       paymentOptionId := paymentOptionId fv |}) (WTariffId i).

Definition set_currency (c : option string) : M unit :=
  set_formValues (fun fv =>
    {| tariffId := tariffId fv; currency := c;
       paymentOptionId := paymentOptionId fv |}) (WCurrency c).

Definition set_paymentOptionId (i : option Z) : M unit :=
  set_formValues (fun fv =>
    {| tariffId := tariffId fv; currency := currency fv;
       paymentOptionId := i |}) (WPaymentOptionId i).

Definition console_error (e : exn) : M unit := fun st =>
  (Normal tt, st, [WConsoleError e]).

(** *** Handlers of the three fields *)

Definition tariffSelectionHandler (newTariffId : Z) : M unit :=
  set_tariffId (Some newTariffId).

Definition currencySelectionHandler (newCurrency : string) : M unit :=
  set_currency (Some newCurrency).

Definition periodSelectionHandler (newPeriodId : option Z) : M unit :=
  set_paymentOptionId newPeriodId.

(** *** Computed values *)

Definition selectedTariff (st : Component) : option ITariff :=
  find (fun tariff => JS.id_eq (tariff_id tariff) (tariffId (formValues st)))
       (tariffs st).

(** A property key made from [currency]: [null] would read the key
    "null". *)
Definition property_key (c : option string) : string :=
  match c with
  | Some k => k
  | None => "null"
  end.

Definition exchangeRate (st : Component) : JS.jsnum :=
  match selectedTariff st with
  | None => JS.Num 0
  | Some tariff =>
      if negb (JS.truthy_string (currency (formValues st)))
         || negb (JS.truthy_id (paymentOptionId (formValues st)))
      then JS.Num 0
      else
        let baseCurrency := tickerFromCurrency (baseCurrency tariff) in
        let rates :=
          find (fun rate => JS.string_eq (base_code rate) baseCurrency)
               (exchangeRates st) in
        if negb (JS.truthy_string baseCurrency) then JS.Num 0
        else
          match rates with
          | None => JS.Num 0
          | Some rates =>
              (* [!rates.conversion_rates] is false: the map of a rates
                 record is an object *)
              match conversion_rates rates
                      !! property_key (currency (formValues st)) with
              | Some rate => JS.Num rate
              | None => JS.Undefined
              end
          end
  end.

Definition totalAmount (st : Component) : float :=
  match selectedTariff st with
  | None => 0%float
  | Some tariff =>
      (* [!formValues.value] is false: the form is an object *)
      if negb (JS.truthy_id (paymentOptionId (formValues st))) then 0%float
      else
        match find (fun option =>
                      JS.id_eq (option_id option)
                               (paymentOptionId (formValues st)))
                   (paymentOptions tariff) with
        | Some selectedOption =>
            JS.round2 (JS.mul (basePrice selectedOption) (exchangeRate st))
        | None => 0%float
        end
  end.

Definition discount (st : Component) : float :=
  let fv := formValues st in
  match selectedTariff st with
  | None => 0%float
  | Some tariff =>
      if negb (JS.truthy_id (paymentOptionId fv))
         || negb (JS.truthy_string (currency fv))
         || negb (JS.truthy_id (tariffId fv))
      then 0%float
      else
        match paymentOptionId fv with
        | None => 0%float            (* excluded by the test above *)
        | Some paymentOptionId =>
            let disc :=
              getDiscountForOption (paymentOptions tariff) paymentOptionId in
            if JS.truthy_num disc then JS.round2 (JS.toNumber disc)
            else 0%float
        end
  end.

(** The [:discount] binding of the total display:
    [discount * exchangeRate]. *)
Definition displayedDiscount (st : Component) : float :=
  JS.mul (discount st) (exchangeRate st).

Definition amountCurrency (st : Component) : string :=
  match currency (formValues st) with
  | Some selectedCurrency =>
      if JS.truthy_string (Some selectedCurrency)
      then String.append " " selectedCurrency
      else ""
  | None => ""
  end.

Definition canSubmit (st : Component) : JS.jsval :=
  let fv := formValues st in
  JS.and_then
    (JS.and_then (JS.of_id (tariffId fv)) (JS.of_string (currency fv)))
    (JS.of_id (paymentOptionId fv)).

(** *** The watcher on [formValues.tariffId] *)

(** [paymentOptions[0].id]: reading [id] of the missing element of an
    empty array throws. *)
Definition first_id (paymentOptions : list IPaymentOption) : M (option Z) :=
  match paymentOptions with
  | [] => throw TypeError
  | first :: _ => ret (Some (option_id first))
  end.

Definition tariffWatch (newTariffId : option Z) : M unit :=
  let* st := get in
  match find (fun tariff => JS.id_eq (tariff_id tariff) newTariffId)
             (tariffs st) with
  | None => ret tt
  | Some selectedTariff =>
      let selectedCurrency := tickerFromCurrency (baseCurrency selectedTariff) in
      (* [paymentOptions && Array.isArray(paymentOptions)] holds of every
         array, the empty one included *)
      let* firstPeriodId := first_id (paymentOptions selectedTariff) in
      let* _ := set_currency
                  (if negb (JS.truthy_string selectedCurrency) then None
                   else selectedCurrency) in
      set_paymentOptionId
        (if negb (JS.truthy_id firstPeriodId) then None else firstPeriodId)
  end.

(** A write of [newTariffId] to [formValues.tariffId], as the tariff
    field makes it, followed by the watcher: Vue calls the callback when
    the watched value has changed, before anything else of the component
    runs. *)
Definition tariffIdTransition (newTariffId : option Z) : M unit :=
  let* st := get in
  let* _ := set_tariffId newTariffId in
  if decide (tariffId (formValues st) = newTariffId) then ret tt
  else tariffWatch newTariffId.

(** *** The loader *)

(** How the promise of [fetchCalculatorData()] settles. *)
Inductive fetched :=
| Resolved (fetchedTariffs : list ITariff) (fetchedRates : list IExchangeData)
| Rejected (reason : string).

Definition await (r : fetched) : M (list ITariff * list IExchangeData) :=
  match r with
  | Resolved fetchedTariffs fetchedRates => ret (fetchedTariffs, fetchedRates)
  | Rejected reason => throw (Rejection reason)
  end.

Definition fetchData (r : fetched) : M unit :=
  try_catch_finally
    (let* data := await r in
     let* _ := set_tariffs (fst data) in
     set_exchangeRates (snd data))
    (fun error => console_error error)
    (set_isLoading false).

End Calculator.

Arguments option_id {PaymentPeriod} _.
Arguments basePrice {PaymentPeriod} _.
Arguments paymentPeriod {PaymentPeriod} _.
Arguments tariff_id {Currency PaymentPeriod} _.
Arguments name {Currency PaymentPeriod} _.
Arguments paymentOptions {Currency PaymentPeriod} _.
Arguments baseCurrency {Currency PaymentPeriod} _.
Arguments tariffs {Currency PaymentPeriod} _.
Arguments exchangeRates {Currency PaymentPeriod} _.
Arguments isLoading {Currency PaymentPeriod} _.
Arguments formValues {Currency PaymentPeriod} _.
Arguments initial {Currency PaymentPeriod}.
Arguments selectedTariff {Currency PaymentPeriod} st.
Arguments exchangeRate {Currency PaymentPeriod} tickerFromCurrency st.
Arguments totalAmount {Currency PaymentPeriod} tickerFromCurrency st.
Arguments discount {Currency PaymentPeriod} getDiscountForOption st.
Arguments displayedDiscount {Currency PaymentPeriod}
  tickerFromCurrency getDiscountForOption st.
Arguments amountCurrency {Currency PaymentPeriod} st.
Arguments canSubmit {Currency PaymentPeriod} st.
Arguments tariffWatch {Currency PaymentPeriod} tickerFromCurrency newTariffId _.
Arguments tariffIdTransition {Currency PaymentPeriod}
  tickerFromCurrency newTariffId _.
Arguments Resolved {Currency PaymentPeriod} _ _.
Arguments Rejected {Currency PaymentPeriod} _.
Arguments fetchData {Currency PaymentPeriod} r _.

(** ** Sample data

    A concrete enumeration, ticker table and catalogue on which the model
    runs: one tariff in USD with a monthly option at 9.99, and a rates
    table from USD to EUR at 0.9. *)

Module Sample.

Inductive Currency := RUB | USD | EUR.

Inductive PaymentPeriod := Monthly | Yearly.

Definition tickerFromCurrency (c : Currency) : option string :=
  Some match c with
       | RUB => "RUB"
       | USD => "USD"
       | EUR => "EUR"
       end.

(** A tenth of the price of the option, [undefined] for an unknown id. *)
Definition getDiscountForOption (options : list (IPaymentOption PaymentPeriod))
    (paymentOptionId : Z) : JS.jsnum :=
  match find (fun o => option_id o =? paymentOptionId) options with
  | Some o => JS.Num (basePrice o * 0.1)
  | None => JS.Undefined
  end.

Definition monthly : IPaymentOption PaymentPeriod :=
  {| option_id := 10; basePrice := 9.99; paymentPeriod := Monthly |}.

Definition basic : ITariff Currency PaymentPeriod :=
  {| tariff_id := 1; name := "Basic"; paymentOptions := [monthly];
     baseCurrency := USD |}.

(** A tariff whose first payment option has id 0. *)
Definition zeroth : ITariff Currency PaymentPeriod :=
  {| tariff_id := 3; name := "Zeroth";
     paymentOptions :=
       [{| option_id := 0; basePrice := 5; paymentPeriod := Yearly |}];
     baseCurrency := EUR |}.

(** A tariff without payment options. *)
Definition bare : ITariff Currency PaymentPeriod :=
  {| tariff_id := 2; name := "Bare"; paymentOptions := [];
     baseCurrency := EUR |}.

Definition usd_rates : IExchangeData :=
  {| base_code := "USD"; conversion_rates := {[ "EUR" := 0.9%float ]} |}.

Definition form (t : option Z) (c : option string) (p : option Z) : IFormValues :=
  {| tariffId := t; currency := c; paymentOptionId := p |}.

Definition loaded (fv : IFormValues) : Component Currency PaymentPeriod :=
  {| tariffs := [basic; bare; zeroth]; exchangeRates := [usd_rates];
     isLoading := false; formValues := fv |}.

(** Nothing selected yet. *)
Definition fresh : Component Currency PaymentPeriod :=
  loaded (form None None None).

(** Tariff 1, its option 10, amounts shown in EUR. *)
Definition in_eur : Component Currency PaymentPeriod :=
  loaded (form (Some 1) (Some "EUR") (Some 10)).

(** Tariff 1, its option 10, amounts asked in RUB, which the USD record
    of the rates table does not list. *)
Definition in_rub : Component Currency PaymentPeriod :=
  loaded (form (Some 1) (Some "RUB") (Some 10)).

(** An id of no tariff of the catalogue, with a currency and a period
    left from an earlier selection. *)
Definition stale : Component Currency PaymentPeriod :=
  loaded (form (Some 99) (Some "USD") (Some 10)).

(** Tariff id 0 with the other two fields filled. *)
Definition zero_tariff : Component Currency PaymentPeriod :=
  loaded (form (Some 0) (Some "USD") (Some 10)).

End Sample.

(** ** The props handed to the three fields *)

Arguments tariffSelectionHandler {Currency PaymentPeriod} newTariffId _.
Arguments currencySelectionHandler {Currency PaymentPeriod} newCurrency _.
Arguments periodSelectionHandler {Currency PaymentPeriod} newPeriodId _.

Section Fields.

Context {Currency PaymentPeriod : Type}.

(** [Currency.RUB], a member of the enumeration. *)
Variable RUB : Currency.

(** [tariffFieldProps]; an object [{ id, name }] is a pair. *)
Definition tariffFieldProps (st : Component Currency PaymentPeriod) :
    list (Z * string) :=
  map (fun tariff => (tariff_id tariff, name tariff)) (tariffs st).

(** [selectedTariff.value?.baseCurrency ?? Currency.RUB] *)
Definition currencyProps (st : Component Currency PaymentPeriod) : Currency :=
  match selectedTariff st with
  | Some tariff => baseCurrency tariff
  | None => RUB
  end.

(** [periodFieldProps]; an object [{ id, paymentPeriod }] is a pair.  The
    [paymentOptions] of a selected tariff is an array, which is truthy. *)
Definition periodFieldProps (st : Component Currency PaymentPeriod) :
    list (Z * PaymentPeriod) :=
  match selectedTariff st with
  | Some tariff =>
      map (fun option => (option_id option, paymentPeriod option))
          (paymentOptions tariff)
  | None => []
  end.

End Fields.

(** ** Sample data with a rate far from 1

    The sample tariff with amounts shown in RUB at 92.5 for one USD: at
    this rate rounding before the conversion and rounding after it give
    different amounts. *)

Module Roubles.

Definition usd_rates : IExchangeData :=
  {| base_code := "USD"; conversion_rates := {[ "RUB" := 92.5%float ]} |}.

Definition priced :
    Component Sample.Currency Sample.PaymentPeriod :=
  {| tariffs := [Sample.basic]; exchangeRates := [usd_rates];
     isLoading := false;
     formValues := Sample.form (Some 1) (Some "RUB") (Some 10) |}.

End Roubles.

(** ** Facts on binary64 arithmetic *)

Lemma mul_nan_r (x : float) : (x * nan)%float = nan.
Proof.
  rewrite <- (SF2Prim_Prim2SF (x * nan)), mul_spec.
  change (Prim2SF nan) with S754_nan.
  unfold SF64mul, SFmul. destruct (Prim2SF x); reflexivity.
Qed.

Lemma mul_zero_r (x : float) :
  JS.finiteNumber x = true -> (x * 0)%float = 0%float \/ (x * 0)%float = (-0)%float.
Proof.
  unfold JS.finiteNumber. intros Hfin.
  rewrite <- (SF2Prim_Prim2SF (x * 0)), mul_spec.
  change (Prim2SF 0) with (S754_zero false).
  unfold SF64mul, SFmul.
  destruct (Prim2SF x) as [s| | |s m e]; try discriminate;
    destruct s; simpl; auto.
Qed.

Lemma round2_zero : JS.round2 0 = 0%float.
Proof. vm_compute. reflexivity. Qed.

Lemma round2_neg_zero : JS.round2 (-0) = 0%float.
Proof. vm_compute. reflexivity. Qed.

Lemma round2_nan : JS.round2 nan = nan.
Proof. vm_compute. reflexivity. Qed.

Lemma nan_not_zero : nan <> 0%float.
Proof.
  intros H. apply (f_equal PrimFloat.is_nan) in H. vm_compute in H.
  discriminate.
Qed.

Lemma round2_mul_zero (x : float) :
  JS.finiteNumber x = true -> JS.round2 (JS.mul x (JS.Num 0)) = 0%float.
Proof.
  intros Hfin. unfold JS.mul, JS.toNumber.
  destruct (mul_zero_r x Hfin) as [-> | ->].
  - exact round2_zero.
  - exact round2_neg_zero.
Qed.

Lemma round2_mul_undefined (x : float) :
  JS.round2 (JS.mul x JS.Undefined) = nan.
Proof.
  unfold JS.mul, JS.toNumber. rewrite mul_nan_r. exact round2_nan.
Qed.

(** ** The model on the sample data *)

Example round2_down : JS.round2 8.991 = 8.99%float.
Proof. vm_compute. reflexivity. Qed.

Example round2_tie : JS.round2 0.125 = 0.13%float.
Proof. vm_compute. reflexivity. Qed.

Example round2_negative_tie : JS.round2 (-0.125) = (-0.13)%float.
Proof. vm_compute. reflexivity. Qed.

(** 1.005 is stored as a binary64 value just below 1.005. *)
Example round2_inexact_literal : JS.round2 1.005 = 1%float.
Proof. vm_compute. reflexivity. Qed.

Example round2_small_negative : JS.round2 (-0.001) = (-0)%float.
Proof. vm_compute. reflexivity. Qed.

Example round2_large : JS.round2 1e21 = 1e21%float.
Proof. vm_compute. reflexivity. Qed.

Example round2_infinity : JS.round2 infinity = infinity.
Proof. vm_compute. reflexivity. Qed.

Example select_basic :
  tariffIdTransition Sample.tickerFromCurrency (Some 1) Sample.fresh
  = (Normal tt,
     Sample.loaded (Sample.form (Some 1) (Some "USD") (Some 10)),
     [WTariffId (Some 1); WCurrency (Some "USD"); WPaymentOptionId (Some 10)]).
Proof. reflexivity. Qed.

Example rate_in_eur :
  exchangeRate Sample.tickerFromCurrency Sample.in_eur = JS.Num 0.9.
Proof. vm_compute. reflexivity. Qed.

Example total_in_eur :
  totalAmount Sample.tickerFromCurrency Sample.in_eur = 8.99%float.
Proof. vm_compute. reflexivity. Qed.

Example nothing_selected :
  totalAmount Sample.tickerFromCurrency Sample.fresh = 0%float
  /\ discount Sample.getDiscountForOption Sample.fresh = 0%float
  /\ canSubmit Sample.fresh = JS.VNull.
Proof. repeat split. Qed.

(** ** Properties of the component *)

Section Properties.

Context {Currency PaymentPeriod : Type}.
Variable tickerFromCurrency : Currency -> option string.
Variable getDiscountForOption :
  list (IPaymentOption PaymentPeriod) -> Z -> JS.jsnum.

Implicit Types (st : Component Currency PaymentPeriod).
Implicit Types (T : ITariff Currency PaymentPeriod).
Implicit Types (catalog : list (ITariff Currency PaymentPeriod)).

(** *** Lookups *)

Lemma id_eq_refl (z : Z) : JS.id_eq z (Some z) = true.
Proof. apply Z.eqb_refl. Qed.

Lemma id_eq_null (z : Z) : JS.id_eq z None = false.
Proof. reflexivity. Qed.

Lemma truthy_id_Some (z : Z) : z <> 0 -> JS.truthy_id (Some z) = true.
Proof. intros Hz. simpl. apply negb_true_iff, Z.eqb_neq, Hz. Qed.

Lemma truthy_string_Some (s : string) :
  s <> "" -> JS.truthy_string (Some s) = true.
Proof. intros Hs. simpl. apply negb_true_iff, String.eqb_neq, Hs. Qed.

Lemma truthy_id_inv (i : option Z) :
  JS.truthy_id i = true -> exists z, i = Some z /\ z <> 0.
Proof.
  destruct i as [z|]; simpl; [|discriminate].
  intros Hz. exists z. split; [reflexivity|].
  apply Z.eqb_neq, negb_true_iff, Hz.
Qed.

Lemma truthy_string_inv (s : option string) :
  JS.truthy_string s = true -> exists k, s = Some k /\ k <> "".
Proof.
  destruct s as [k|]; simpl; [|discriminate].
  intros Hk. exists k. split; [reflexivity|].
  apply String.eqb_neq, negb_true_iff, Hk.
Qed.

Lemma truthy_and_then (a b : JS.jsval) :
  JS.truthy (JS.and_then a b) = JS.truthy a && JS.truthy b.
Proof. unfold JS.and_then. destruct (JS.truthy a) eqn:Ha; simpl; auto. Qed.

Lemma canSubmit_truthy st :
  JS.truthy (canSubmit st)
  = JS.truthy_id (tariffId (formValues st))
    && JS.truthy_string (currency (formValues st))
    && JS.truthy_id (paymentOptionId (formValues st)).
Proof.
  unfold canSubmit. rewrite !truthy_and_then.
  destruct (formValues st) as [[t|] [c|] [p|]]; reflexivity.
Qed.

(** No tariff has the id [null]. *)
Lemma find_null catalog :
  find (fun tariff => JS.id_eq (tariff_id tariff) None) catalog = None.
Proof. induction catalog as [|T catalog IH]; simpl; auto. Qed.

(** In a catalogue without repeated ids a lookup by the id of one of its
    tariffs finds that tariff. *)
Lemma find_by_id catalog T :
  NoDup (tariff_id <$> catalog) -> T ∈ catalog ->
  find (fun tariff => JS.id_eq (tariff_id tariff) (Some (tariff_id T))) catalog
  = Some T.
Proof.
  induction catalog as [|T0 catalog IH]; intros Hnd Hin.
  - inversion Hin.
  - rewrite fmap_cons in Hnd. apply NoDup_cons in Hnd as [Hfresh Hnd].
    simpl. apply elem_of_cons in Hin as [-> | Hin].
    + rewrite Z.eqb_refl. reflexivity.
    + destruct (Z.eqb_spec (tariff_id T0) (tariff_id T)) as [Heq | _].
      * exfalso. apply Hfresh. rewrite Heq.
        apply list_elem_of_fmap. exists T. auto.
      * apply IH; assumption.
Qed.

(** *** The watcher, case by case *)

Lemma tariffWatch_unknown st newTariffId :
  find (fun tariff => JS.id_eq (tariff_id tariff) newTariffId) (tariffs st) = None ->
  tariffWatch tickerFromCurrency newTariffId st = (Normal tt, st, []).
Proof. intros Hfind. unfold tariffWatch, bind, get. rewrite Hfind. reflexivity. Qed.

Lemma tariffWatch_empty st newTariffId T :
  find (fun tariff => JS.id_eq (tariff_id tariff) newTariffId) (tariffs st) = Some T ->
  paymentOptions T = [] ->
  tariffWatch tickerFromCurrency newTariffId st = (Throw TypeError, st, []).
Proof.
  intros Hfind Hempty. unfold tariffWatch, bind, get.
  rewrite Hfind, Hempty. reflexivity.
Qed.

Lemma tariffWatch_found st newTariffId T first rest :
  find (fun tariff => JS.id_eq (tariff_id tariff) newTariffId) (tariffs st) = Some T ->
  paymentOptions T = first :: rest ->
  let selectedCurrency := tickerFromCurrency (baseCurrency T) in
  let c := if JS.truthy_string selectedCurrency then selectedCurrency else None in
  let p := if option_id first =? 0 then None else Some (option_id first) in
  tariffWatch tickerFromCurrency newTariffId st
  = (Normal tt,
     {| tariffs := tariffs st; exchangeRates := exchangeRates st;
        isLoading := isLoading st;
        formValues := {| tariffId := tariffId (formValues st);
                         currency := c; paymentOptionId := p |} |},
     [WCurrency c; WPaymentOptionId p]).
Proof.
  intros Hfind Hopts. unfold tariffWatch, bind, get.
  rewrite Hfind, Hopts. simpl.
  destruct (JS.truthy_string (tickerFromCurrency (baseCurrency T)));
    destruct (option_id first =? 0); reflexivity.
Qed.

Lemma tariffIdTransition_eq st newTariffId :
  tariffIdTransition tickerFromCurrency newTariffId st
  = let st1 :=
      {| tariffs := tariffs st; exchangeRates := exchangeRates st;
         isLoading := isLoading st;
         formValues := {| tariffId := newTariffId;
                          currency := currency (formValues st);
                          paymentOptionId := paymentOptionId (formValues st) |} |} in
    if decide (tariffId (formValues st) = newTariffId)
    then (Normal tt, st1, [WTariffId newTariffId])
    else match tariffWatch tickerFromCurrency newTariffId st1 with
         | (c, st2, w) => (c, st2, WTariffId newTariffId :: w)
         end.
Proof.
  unfold tariffIdTransition, bind, get, set_tariffId, set_formValues. simpl.
  destruct (decide (tariffId (formValues st) = newTariffId)); [reflexivity|].
  destruct (tariffWatch _ _ _) as [[c st2] w]. reflexivity.
Qed.

(** *** The loader, from any state *)

Lemma fetchData_resolved st fetchedTariffs fetchedRates :
  fetchData (Resolved fetchedTariffs fetchedRates) st
  = (Normal tt,
     {| tariffs := fetchedTariffs; exchangeRates := fetchedRates;
        isLoading := false; formValues := formValues st |},
     [WTariffs; WExchangeRates; WIsLoading false]).
Proof. reflexivity. Qed.

Lemma fetchData_rejected st reason :
  fetchData (Rejected reason) st
  = (Normal tt,
     {| tariffs := tariffs st; exchangeRates := exchangeRates st;
        isLoading := false; formValues := formValues st |},
     [WConsoleError (Rejection reason); WIsLoading false]).
Proof. reflexivity. Qed.

(** *** The tariff reset rule *)

(** C1 (amended).  In a catalogue without repeated tariff ids, for every
    tariff [T] of it whose first payment option has a non-zero id and
    whose base currency does not have the empty ticker: once [tariffId]
    has changed to the id of [T] the watcher has run to its end, and the
    form holds the ticker of the base currency of [T] as [currency] and
    the id of the first payment option of [T] as [paymentOptionId]. *)
Theorem tariff_selection_resets st T first rest :
  NoDup (tariff_id <$> tariffs st) ->
  T ∈ tariffs st ->
  paymentOptions T = first :: rest ->
  option_id first <> 0 ->
  tickerFromCurrency (baseCurrency T) <> Some "" ->
  tariffId (formValues st) <> Some (tariff_id T) ->
  exists st' w,
    tariffIdTransition tickerFromCurrency (Some (tariff_id T)) st
    = (Normal tt, st', w)
    /\ tariffId (formValues st') = Some (tariff_id T)
    /\ currency (formValues st') = tickerFromCurrency (baseCurrency T)
    /\ paymentOptionId (formValues st') = Some (option_id first).
Proof.
  intros Hnd Hin Hopts Hid Hticker Hchanged.
  rewrite tariffIdTransition_eq. cbv zeta.
  destruct (decide _) as [Hsame | _]; [contradiction|].
  erewrite tariffWatch_found; [| apply find_by_id; assumption | exact Hopts].
  eexists _, _. split; [reflexivity|]. simpl.
  split; [reflexivity|]. split.
  - destruct (tickerFromCurrency (baseCurrency T)) as [k|] eqn:Hk;
      [|reflexivity].
    simpl. destruct (String.eqb_spec k "") as [-> | _]; [congruence|].
    reflexivity.
  - destruct (Z.eqb_spec (option_id first) 0); [contradiction | reflexivity].
Qed.

(** C7.  When the new [tariffId] is the id of no tariff of the catalogue
    the watcher writes nothing, and the transition as a whole leaves
    [currency] and [paymentOptionId] as they were; [null] is such a
    value. *)
Theorem unknown_tariff_keeps_selection st newTariffId :
  find (fun tariff => JS.id_eq (tariff_id tariff) newTariffId) (tariffs st) = None ->
  tariffWatch tickerFromCurrency newTariffId st = (Normal tt, st, [])
  /\ tariffWatch tickerFromCurrency None st = (Normal tt, st, [])
  /\ exists st',
       tariffIdTransition tickerFromCurrency newTariffId st
       = (Normal tt, st', [WTariffId newTariffId])
       /\ tariffId (formValues st') = newTariffId
       /\ currency (formValues st') = currency (formValues st)
       /\ paymentOptionId (formValues st') = paymentOptionId (formValues st).
Proof.
  intros Hfind. split; [|split].
  - apply tariffWatch_unknown, Hfind.
  - apply tariffWatch_unknown, find_null.
  - rewrite tariffIdTransition_eq. cbv zeta.
    destruct (decide _) as [_ | _].
    + eexists. split; [reflexivity|]. simpl. auto.
    + rewrite tariffWatch_unknown by exact Hfind.
      eexists. split; [reflexivity|]. simpl. auto.
Qed.

(** *** The loader *)

(** C6.  Run from the initial state, the loader ends normally however
    the fetch settles; its last write, and its only write to
    [isLoading], sets the flag to false; when the fetch is rejected
    [tariffs] and [exchangeRates] are still the initial empty lists, and
    when it resolves they are the fetched lists. *)
Theorem fetchData_outcomes (r : fetched Currency PaymentPeriod) :
  let start : Component Currency PaymentPeriod := initial in
  exists st' before,
    fetchData r start = (Normal tt, st', before ++ [WIsLoading false])
    /\ (forall b, WIsLoading b ∉ before)
    /\ isLoading st' = false
    /\ formValues st' = formValues start
    /\ match r with
       | Rejected _ =>
           tariffs st' = tariffs start /\ tariffs st' = []
           /\ exchangeRates st' = exchangeRates start /\ exchangeRates st' = []
       | Resolved fetchedTariffs fetchedRates =>
           tariffs st' = fetchedTariffs /\ exchangeRates st' = fetchedRates
       end.
Proof.
  intros start. destruct r as [fetchedTariffs fetchedRates | reason].
  - rewrite fetchData_resolved.
    eexists _, [WTariffs; WExchangeRates]. split; [reflexivity|].
    split; [|auto].
    intros b Hb. repeat (apply elem_of_cons in Hb as [Hb | Hb]; [discriminate|]).
    inversion Hb.
  - rewrite fetchData_rejected.
    eexists _, [WConsoleError (Rejection reason)]. split; [reflexivity|].
    split; [|repeat split].
    intros b Hb. repeat (apply elem_of_cons in Hb as [Hb | Hb]; [discriminate|]).
    inversion Hb.
Qed.

(** *** Derived values *)

(** C5 (amended).  [canSubmit] is truthy exactly when the three fields
    are all present in the sense of [!]: non-null, with non-zero ids and
    a non-empty currency. *)
Theorem canSubmit_iff st :
  JS.truthy (canSubmit st) = true
  <-> exists t c p,
        tariffId (formValues st) = Some t /\ t <> 0
        /\ currency (formValues st) = Some c /\ c <> ""
        /\ paymentOptionId (formValues st) = Some p /\ p <> 0.
Proof.
  rewrite canSubmit_truthy, !andb_true_iff. split.
  - intros [[Ht Hc] Hp].
    apply truthy_id_inv in Ht as (t & ? & ?).
    apply truthy_string_inv in Hc as (c & ? & ?).
    apply truthy_id_inv in Hp as (p & ? & ?).
    exists t, c, p. auto 10.
  - intros (t & c & p & -> & Ht & -> & Hc & -> & Hp).
    auto using truthy_id_Some, truthy_string_Some.
Qed.

(** *** The exchange rate, case by case *)

Lemma exchangeRate_no_tariff st :
  selectedTariff st = None -> exchangeRate tickerFromCurrency st = JS.Num 0.
Proof. intros Hsel. unfold exchangeRate. rewrite Hsel. reflexivity. Qed.

Lemma exchangeRate_no_currency st :
  JS.truthy_string (currency (formValues st)) = false ->
  exchangeRate tickerFromCurrency st = JS.Num 0.
Proof.
  intros Hc. unfold exchangeRate. rewrite Hc.
  destruct (selectedTariff st); reflexivity.
Qed.

Lemma exchangeRate_no_period st :
  JS.truthy_id (paymentOptionId (formValues st)) = false ->
  exchangeRate tickerFromCurrency st = JS.Num 0.
Proof.
  intros Hp. unfold exchangeRate. rewrite Hp, orb_true_r.
  destruct (selectedTariff st); reflexivity.
Qed.

Lemma exchangeRate_no_entry st T :
  selectedTariff st = Some T ->
  find (fun rate =>
          JS.string_eq (base_code rate) (tickerFromCurrency (baseCurrency T)))
       (exchangeRates st) = None ->
  exchangeRate tickerFromCurrency st = JS.Num 0.
Proof.
  intros Hsel Hfind. unfold exchangeRate. rewrite Hsel, Hfind.
  destruct (_ || _); [reflexivity|].
  destruct (negb _); reflexivity.
Qed.

Lemma exchangeRate_lookup st T c p b r :
  selectedTariff st = Some T ->
  currency (formValues st) = Some c -> c <> "" ->
  paymentOptionId (formValues st) = Some p -> p <> 0 ->
  tickerFromCurrency (baseCurrency T) = Some b -> b <> "" ->
  find (fun rate => JS.string_eq (base_code rate) (Some b)) (exchangeRates st)
  = Some r ->
  exchangeRate tickerFromCurrency st
  = match conversion_rates r !! c with
    | Some rate => JS.Num rate
    | None => JS.Undefined
    end.
Proof.
  intros Hsel Hc Hc0 Hp Hp0 Hb Hb0 Hfind. unfold exchangeRate.
  rewrite Hsel, Hc, Hp, Hb, Hfind.
  rewrite (truthy_string_Some _ Hc0), (truthy_id_Some _ Hp0),
    (truthy_string_Some _ Hb0).
  reflexivity.
Qed.

(** C3.  With a tariff selected and [paymentOptionId] the id of one of
    its options, [totalAmount] is the base price of that option (a
    finite number) times the value of [exchangeRate], passed through
    [toFixed(2)] and read back as a number; with no tariff selected, or
    with no option of the selected tariff matching [paymentOptionId], it
    is 0. *)
Theorem totalAmount_rounds st :
  (forall T selectedOption rate,
     selectedTariff st = Some T ->
     find (fun option =>
             JS.id_eq (option_id option) (paymentOptionId (formValues st)))
          (paymentOptions T) = Some selectedOption ->
     JS.finiteNumber (basePrice selectedOption) = true ->
     exchangeRate tickerFromCurrency st = rate ->
     totalAmount tickerFromCurrency st
     = JS.round2 (JS.mul (basePrice selectedOption) rate))
  /\ (selectedTariff st = None -> totalAmount tickerFromCurrency st = 0%float)
  /\ (forall T,
        selectedTariff st = Some T ->
        find (fun option =>
                JS.id_eq (option_id option) (paymentOptionId (formValues st)))
             (paymentOptions T) = None ->
        totalAmount tickerFromCurrency st = 0%float).
Proof.
  split; [|split].
  - intros T selectedOption rate Hsel Hfind Hfin <-.
    unfold totalAmount. rewrite Hsel, Hfind.
    destruct (JS.truthy_id (paymentOptionId (formValues st))) eqn:Hp; simpl.
    + reflexivity.
    + rewrite (exchangeRate_no_period _ Hp).
      symmetry. apply round2_mul_zero, Hfin.
  - intros Hsel. unfold totalAmount. rewrite Hsel. reflexivity.
  - intros T Hsel Hfind. unfold totalAmount. rewrite Hsel, Hfind.
    destruct (negb _); reflexivity.
Qed.

(** C8 (amended).  With no tariff selected, that is with [tariffId] null
    or the id of no tariff of the catalogue, [totalAmount] is 0 and
    [discount] is 0; [canSubmit] is falsy when [tariffId] is itself
    absent (null or 0). *)
Theorem no_tariff_neutral st :
  selectedTariff st = None ->
  totalAmount tickerFromCurrency st = 0%float
  /\ discount getDiscountForOption st = 0%float
  /\ (JS.truthy_id (tariffId (formValues st)) = false ->
      JS.truthy (canSubmit st) = false).
Proof.
  intros Hsel. split; [|split].
  - unfold totalAmount. rewrite Hsel. reflexivity.
  - unfold discount. rewrite Hsel. reflexivity.
  - intros Ht. rewrite canSubmit_truthy, Ht. reflexivity.
Qed.

(** C9.  With the three selections present, [discount] is the discount
    of the selected option as the helper gives it, in the base currency
    of the tariff, passed through [toFixed(2)] and read back (0 when the
    helper gives a falsy value): neither the rates table nor the chosen
    currency enters it.  The conversion comes afterwards, in the binding
    of the display: the value shown is the binary64 product of this
    rounded discount and the exchange rate, not rounded again (rounding
    first and converting second, where [totalAmount] converts first and
    rounds second). *)
Theorem discount_rounds_then_converts st T p :
  selectedTariff st = Some T ->
  JS.truthy_id (tariffId (formValues st)) = true ->
  JS.truthy_string (currency (formValues st)) = true ->
  paymentOptionId (formValues st) = Some p ->
  p <> 0 ->
  let disc := getDiscountForOption (paymentOptions T) p in
  let rounded :=
    if JS.truthy_num disc then JS.round2 (JS.toNumber disc) else 0%float in
  discount getDiscountForOption st = rounded
  /\ (forall rate,
        exchangeRate tickerFromCurrency st = JS.Num rate ->
        displayedDiscount tickerFromCurrency getDiscountForOption st
        = (rounded * rate)%float)
  /\ (exchangeRate tickerFromCurrency st = JS.Undefined ->
      displayedDiscount tickerFromCurrency getDiscountForOption st = nan)
  /\ forall rates c,
       c <> "" ->
       discount getDiscountForOption
         {| tariffs := tariffs st; exchangeRates := rates;
            isLoading := isLoading st;
            formValues := {| tariffId := tariffId (formValues st);
                             currency := Some c;
                             paymentOptionId := paymentOptionId (formValues st) |} |}
       = rounded.
Proof.
  intros Hsel Ht Hc Hp Hp0 disc rounded.
  assert (Hdisc : discount getDiscountForOption st = rounded).
  { unfold discount. cbv zeta.
    rewrite Hsel, Ht, Hc, Hp, (truthy_id_Some _ Hp0). reflexivity. }
  split; [exact Hdisc|]. split; [|split].
  - intros rate Hrate. unfold displayedDiscount.
    rewrite Hdisc, Hrate. reflexivity.
  - intros Hrate. unfold displayedDiscount. rewrite Hdisc, Hrate.
    unfold JS.mul, JS.toNumber. apply mul_nan_r.
  - intros rates c Hc0.
    unfold discount, selectedTariff in *.
    cbn [formValues tariffs tariffId currency paymentOptionId].
    rewrite Hsel, Ht, Hp, (truthy_id_Some _ Hp0), (truthy_string_Some _ Hc0).
    reflexivity.
Qed.

(** C10.  With a tariff selected, a currency selected, an option of that
    tariff selected (all present in the sense of [!]), a rates record
    whose [base_code] is the ticker of the base currency of the tariff,
    and no entry for the selected currency in the [conversion_rates] of
    that record: [exchangeRate] is [undefined], not 0, and [totalAmount]
    is NaN, not 0. *)
Theorem missing_rate_is_undefined st T selectedOption c p b r :
  selectedTariff st = Some T ->
  currency (formValues st) = Some c -> c <> "" ->
  paymentOptionId (formValues st) = Some p -> p <> 0 ->
  find (fun option => JS.id_eq (option_id option) (Some p)) (paymentOptions T)
  = Some selectedOption ->
  tickerFromCurrency (baseCurrency T) = Some b -> b <> "" ->
  find (fun rate => JS.string_eq (base_code rate) (Some b)) (exchangeRates st)
  = Some r ->
  conversion_rates r !! c = None ->
  exchangeRate tickerFromCurrency st = JS.Undefined
  /\ exchangeRate tickerFromCurrency st <> JS.Num 0
  /\ totalAmount tickerFromCurrency st = nan
  /\ totalAmount tickerFromCurrency st <> 0%float.
Proof.
  intros Hsel Hc Hc0 Hp Hp0 Hopt Hb Hb0 Hfind Hmiss.
  assert (Hrate : exchangeRate tickerFromCurrency st = JS.Undefined).
  { rewrite (exchangeRate_lookup st T c p b r) by assumption.
    rewrite Hmiss. reflexivity. }
  assert (Htotal : totalAmount tickerFromCurrency st = nan).
  { unfold totalAmount. rewrite Hsel, Hp, (truthy_id_Some _ Hp0), Hopt.
    simpl. rewrite Hrate. apply round2_mul_undefined. }
  rewrite Hrate, Htotal. repeat split.
  - discriminate.
  - exact nan_not_zero.
Qed.

End Properties.

(** ** The properties on the sample data *)

Lemma tariff_selection_resets_witness :
  exists st' w,
    tariffIdTransition Sample.tickerFromCurrency (Some 1) Sample.fresh
    = (Normal tt, st', w)
    /\ tariffId (formValues st') = Some 1
    /\ currency (formValues st') = Some "USD"
    /\ paymentOptionId (formValues st') = Some 10.
Proof.
  apply (tariff_selection_resets Sample.tickerFromCurrency
           Sample.fresh Sample.basic Sample.monthly []).
  - apply (bool_decide_unpack _). vm_compute. reflexivity.
  - apply list_elem_of_here.
  - reflexivity.
  - simpl. lia.
  - discriminate.
  - discriminate.
Defined.

(** C1, as first stated, fails on a tariff whose first payment option
    has id 0: the watcher stores null, not 0. *)
Lemma reset_stores_null_for_zero_id :
  Sample.zeroth ∈ tariffs Sample.fresh
  /\ (exists first rest,
        paymentOptions Sample.zeroth = first :: rest
        /\ option_id first = 0)
  /\ tariffIdTransition Sample.tickerFromCurrency
       (Some (tariff_id Sample.zeroth)) Sample.fresh
     = (Normal tt,
        Sample.loaded (Sample.form (Some 3) (Some "EUR") None),
        [WTariffId (Some 3); WCurrency (Some "EUR"); WPaymentOptionId None])
  /\ paymentOptionId (Sample.form (Some 3) (Some "EUR") None) <> Some 0.
Proof.
  split; [|split; [|split]].
  - do 2 apply list_elem_of_further. apply list_elem_of_here.
  - eexists _, _. split; reflexivity.
  - reflexivity.
  - discriminate.
Qed.

(** C2.  Selecting the sample tariff without payment options, with a
    currency and a period left from an earlier selection: the watcher
    throws a [TypeError] before its two writes, so [paymentOptionId]
    keeps its earlier value instead of becoming null. *)
Theorem empty_options_throw :
  paymentOptions Sample.bare = []
  /\ tariffIdTransition Sample.tickerFromCurrency
       (Some (tariff_id Sample.bare)) Sample.in_eur
     = (Throw TypeError,
        Sample.loaded (Sample.form (Some 2) (Some "EUR") (Some 10)),
        [WTariffId (Some 2)]).
Proof. split; reflexivity. Qed.

Lemma totalAmount_rounds_witness :
  totalAmount Sample.tickerFromCurrency Sample.in_eur = 8.99%float.
Proof.
  transitivity (JS.round2 (JS.mul (basePrice Sample.monthly) (JS.Num 0.9))).
  - apply (proj1 (totalAmount_rounds Sample.tickerFromCurrency Sample.in_eur)
             Sample.basic Sample.monthly (JS.Num 0.9)).
    + reflexivity.
    + reflexivity.
    + vm_compute. reflexivity.
    + vm_compute. reflexivity.
  - vm_compute. reflexivity.
Defined.

(** C4.  On the sample state that asks for RUB, with the USD record of
    the rates table listing EUR only, all three selections are present
    and the record is found, yet [exchangeRate] is [undefined] and not
    0. *)
Theorem exchangeRate_missing_key :
  selectedTariff Sample.in_rub = Some Sample.basic
  /\ find (fun rate =>
             JS.string_eq (base_code rate)
               (Sample.tickerFromCurrency (baseCurrency Sample.basic)))
          (exchangeRates Sample.in_rub) = Some Sample.usd_rates
  /\ conversion_rates Sample.usd_rates !! "RUB" = None
  /\ exchangeRate Sample.tickerFromCurrency Sample.in_rub = JS.Undefined
  /\ exchangeRate Sample.tickerFromCurrency Sample.in_rub <> JS.Num 0.
Proof.
  split; [reflexivity|]. split; [reflexivity|].
  split; [vm_compute; reflexivity|].
  assert (Hrate : exchangeRate Sample.tickerFromCurrency Sample.in_rub
                  = JS.Undefined) by (vm_compute; reflexivity).
  rewrite Hrate. split; [reflexivity | discriminate].
Qed.

Lemma canSubmit_iff_witness :
  JS.truthy (canSubmit Sample.in_eur) = true.
Proof.
  apply (proj2 (canSubmit_iff Sample.in_eur)).
  exists 1, "EUR"%string, 10.
  split; [reflexivity|]. split; [lia|]. split; [reflexivity|].
  split; [discriminate|]. split; [reflexivity | lia].
Defined.

(** C5, as first stated, fails on a form whose [tariffId] is 0: the
    three fields are non-null and [canSubmit] is the number 0. *)
Lemma canSubmit_zero_tariffId :
  tariffId (formValues Sample.zero_tariff) <> None
  /\ currency (formValues Sample.zero_tariff) <> None
  /\ paymentOptionId (formValues Sample.zero_tariff) <> None
  /\ canSubmit Sample.zero_tariff = JS.VNumber 0
  /\ JS.truthy (canSubmit Sample.zero_tariff) <> true.
Proof.
  split; [discriminate|]. split; [discriminate|]. split; [discriminate|].
  split; [reflexivity | discriminate].
Qed.

Lemma unknown_tariff_keeps_selection_witness :
  exists st',
    tariffIdTransition Sample.tickerFromCurrency (Some 99) Sample.in_eur
    = (Normal tt, st', [WTariffId (Some 99)])
    /\ tariffId (formValues st') = Some 99
    /\ currency (formValues st') = Some "EUR"
    /\ paymentOptionId (formValues st') = Some 10.
Proof.
  apply (unknown_tariff_keeps_selection Sample.tickerFromCurrency
           Sample.in_eur (Some 99)).
  reflexivity.
Defined.

Lemma no_tariff_neutral_witness :
  totalAmount Sample.tickerFromCurrency Sample.fresh = 0%float
  /\ discount Sample.getDiscountForOption Sample.fresh = 0%float
  /\ JS.truthy (canSubmit Sample.fresh) = false.
Proof.
  destruct (no_tariff_neutral Sample.tickerFromCurrency
              Sample.getDiscountForOption Sample.fresh eq_refl)
    as (Htotal & Hdiscount & Hsubmit).
  split; [exact Htotal|]. split; [exact Hdiscount|].
  apply Hsubmit. reflexivity.
Defined.

(** C8, as first stated, fails on a form whose [tariffId] is the id of
    no tariff while a currency and a period are set: no tariff is
    selected and [canSubmit] is truthy. *)
Lemma canSubmit_ignores_catalog :
  selectedTariff Sample.stale = None
  /\ canSubmit Sample.stale = JS.VNumber 10
  /\ JS.truthy (canSubmit Sample.stale) <> false.
Proof. split; [reflexivity|]. split; [reflexivity | discriminate]. Qed.

(** The sample discount, a tenth of 9.99, is rounded to 1 in USD and
    then converted: 92.5 is shown.  Converting the unrounded discount and
    rounding afterwards would give 92.41. *)
Lemma discount_rounds_then_converts_witness :
  discount Sample.getDiscountForOption Roubles.priced = 1%float
  /\ displayedDiscount Sample.tickerFromCurrency Sample.getDiscountForOption
       Roubles.priced
     = (JS.round2 (9.99 * 0.1) * 92.5)%float
  /\ displayedDiscount Sample.tickerFromCurrency Sample.getDiscountForOption
       Roubles.priced = 92.5%float
  /\ JS.round2 (9.99 * 0.1 * 92.5) = 92.41%float.
Proof.
  destruct (discount_rounds_then_converts Sample.tickerFromCurrency
              Sample.getDiscountForOption Roubles.priced Sample.basic 10)
    as (Hdisc & Hshown & _).
  - reflexivity.
  - reflexivity.
  - reflexivity.
  - reflexivity.
  - lia.
  - split; [|split; [|split]].
    + rewrite Hdisc. vm_compute. reflexivity.
    + rewrite (Hshown 92.5%float) by (vm_compute; reflexivity).
      reflexivity.
    + vm_compute. reflexivity.
    + vm_compute. reflexivity.
Defined.

Lemma missing_rate_is_undefined_witness :
  exchangeRate Sample.tickerFromCurrency Sample.in_rub = JS.Undefined
  /\ exchangeRate Sample.tickerFromCurrency Sample.in_rub <> JS.Num 0
  /\ totalAmount Sample.tickerFromCurrency Sample.in_rub = nan
  /\ totalAmount Sample.tickerFromCurrency Sample.in_rub <> 0%float.
Proof.
  apply (missing_rate_is_undefined Sample.tickerFromCurrency Sample.in_rub
           Sample.basic Sample.monthly "RUB" 10 "USD" Sample.usd_rates).
  - reflexivity.
  - reflexivity.
  - discriminate.
  - reflexivity.
  - lia.
  - reflexivity.
  - reflexivity.
  - discriminate.
  - reflexivity.
  - vm_compute. reflexivity.
Defined.

(** ** Further properties: lookups, field props, the watcher's footprint *)

Section Lookups.

Context {A : Type}.

Lemma find_first (f : A -> bool) (l : list A) (x : A) :
  find f l = Some x ->
  f x = true
  /\ exists l1 l2, l = l1 ++ x :: l2 /\ forall y, y ∈ l1 -> f y = false.
Proof.
  induction l as [|a l IH]; simpl; [discriminate|].
  destruct (f a) eqn:Hfa.
  - intros [= ->]. split; [exact Hfa|].
    exists [], l. split; [reflexivity|]. intros y Hy. inversion Hy.
  - intros Hfind. destruct (IH Hfind) as (Hfx & l1 & l2 & -> & Hl1).
    split; [exact Hfx|]. exists (a :: l1), l2. split; [reflexivity|].
    intros y Hy. apply elem_of_cons in Hy as [-> | Hy]; auto.
Qed.

Lemma find_None_iff (f : A -> bool) (l : list A) :
  find f l = None <-> forall y, y ∈ l -> f y = false.
Proof.
  induction l as [|a l IH]; simpl.
  - split; [intros _ y Hy; inversion Hy | reflexivity].
  - destruct (f a) eqn:Hfa.
    + split; [discriminate|]. intros Hall.
      rewrite (Hall a) in Hfa by apply list_elem_of_here. discriminate.
    + rewrite IH. split.
      * intros Hall y Hy. apply elem_of_cons in Hy as [-> | Hy]; auto.
      * intros Hall y Hy. apply Hall, list_elem_of_further, Hy.
Qed.

Lemma find_is_Some (f : A -> bool) (l : list A) (y : A) :
  y ∈ l -> f y = true -> exists x, find f l = Some x.
Proof.
  intros Hy Hfy. destruct (find f l) as [x|] eqn:Hfind; [eauto|].
  rewrite (proj1 (find_None_iff f l) Hfind y Hy) in Hfy. discriminate.
Qed.

End Lookups.

Section Session.

Context {Currency PaymentPeriod : Type}.
Variable tickerFromCurrency : Currency -> option string.
Variable getDiscountForOption :
  list (IPaymentOption PaymentPeriod) -> Z -> JS.jsnum.
Variable RUB : Currency.

Implicit Types (st : Component Currency PaymentPeriod).
Implicit Types (T : ITariff Currency PaymentPeriod).

Lemma id_eq_true (a : Z) (b : option Z) : JS.id_eq a b = true <-> b = Some a.
Proof.
  destruct b as [z|]; simpl; [|split; discriminate].
  rewrite Z.eqb_eq. split; [intros ->; reflexivity | intros [= ->]; reflexivity].
Qed.

Lemma id_eq_false (a : Z) (b : option Z) : JS.id_eq a b = false <-> b <> Some a.
Proof.
  rewrite <- id_eq_true. destruct (JS.id_eq a b); split; congruence.
Qed.

(** X1.  The selected tariff is the first tariff of the catalogue that
    carries the id held in [tariffId]: it is in the catalogue, no tariff
    before it has that id, and the tariff field lists it. *)
Theorem selectedTariff_is_first_match st T :
  selectedTariff st = Some T ->
  tariffId (formValues st) = Some (tariff_id T)
  /\ (tariff_id T, name T) ∈ tariffFieldProps st
  /\ exists earlier later,
       tariffs st = earlier ++ T :: later
       /\ forall T', T' ∈ earlier -> tariff_id T' <> tariff_id T.
Proof.
  unfold selectedTariff. intros Hfind.
  apply find_first in Hfind as (Hid & earlier & later & Hsplit & Hearlier).
  apply id_eq_true in Hid. split; [exact Hid|]. split.
  - unfold tariffFieldProps. rewrite Hsplit.
    apply (list_elem_of_fmap_2 (fun tariff => (tariff_id tariff, name tariff))).
    apply elem_of_app. right. apply list_elem_of_here.
  - exists earlier, later. split; [exact Hsplit|].
    intros T' HT' Heq. specialize (Hearlier T' HT').
    apply id_eq_false in Hearlier. apply Hearlier. rewrite Hid, Heq. reflexivity.
Qed.

(** X2.  No tariff is selected exactly when no tariff of the catalogue
    carries the id held in [tariffId]; with the catalogue still empty
    that is always so. *)
Theorem selectedTariff_none_iff st :
  selectedTariff st = None
  <-> forall T, T ∈ tariffs st -> tariffId (formValues st) <> Some (tariff_id T).
Proof.
  unfold selectedTariff. rewrite find_None_iff.
  split; intros Hall T HT; apply id_eq_false, Hall, HT.
Qed.

(** X3.  Every id the tariff field offers can be selected: after the
    handler has stored it, a tariff with that id is the selected tariff,
    and in a catalogue without repeated ids it is the tariff listed under
    that name. *)
Theorem offered_tariff_is_selectable st i n :
  (i, n) ∈ tariffFieldProps st ->
  exists st' T,
    tariffSelectionHandler i st = (Normal tt, st', [WTariffId (Some i)])
    /\ selectedTariff st' = Some T
    /\ tariff_id T = i
    /\ (NoDup (tariff_id <$> tariffs st) -> name T = n).
Proof.
  unfold tariffFieldProps. intros Hin.
  apply list_elem_of_fmap in Hin as (T0 & [= -> ->] & HT0).
  destruct (find_is_Some
              (fun tariff => JS.id_eq (tariff_id tariff) (Some (tariff_id T0)))
              (tariffs st) T0 HT0 (id_eq_refl _)) as [T Hfind].
  eexists _, T. split; [reflexivity|].
  unfold selectedTariff. simpl. split; [exact Hfind|].
  pose proof (find_first _ _ _ Hfind) as (Hid & _).
  apply id_eq_true in Hid. split; [congruence|].
  intros Hnd. rewrite (find_by_id _ _ Hnd HT0) in Hfind. congruence.
Qed.

(** X4.  The ids the period field offers are exactly the ids for which
    the option lookup of [totalAmount] succeeds on the selected tariff;
    with no tariff selected the field offers nothing. *)
Theorem period_offered_iff_option_found st p :
  (exists period, (p, period) ∈ periodFieldProps st)
  <-> exists T selectedOption,
        selectedTariff st = Some T
        /\ find (fun option => JS.id_eq (option_id option) (Some p))
                (paymentOptions T) = Some selectedOption.
Proof.
  unfold periodFieldProps. split.
  - intros [period Hin]. destruct (selectedTariff st) as [T|]; [|inversion Hin].
    apply list_elem_of_fmap in Hin as (o & [= -> ->] & Ho).
    destruct (find_is_Some
                (fun option => JS.id_eq (option_id option) (Some (option_id o)))
                (paymentOptions T) o Ho (id_eq_refl _)) as [o' Hfind].
    eauto.
  - intros (T & o & -> & Hfind).
    apply find_first in Hfind as (Hid & l1 & l2 & -> & _).
    apply id_eq_true in Hid. injection Hid as ->.
    exists (paymentPeriod o).
    apply (list_elem_of_fmap_2 (fun option => (option_id option, paymentPeriod option))).
    apply elem_of_app. right. apply list_elem_of_here.
Qed.

(** X5.  Whatever the state and the new id, the watcher is all or
    nothing: it either writes nothing and leaves the state as it was
    (also when it throws), or ends normally having written [currency] and
    then [paymentOptionId].  It never writes [tariffId], the two datasets
    or the loading flag. *)
Theorem tariffWatch_footprint st newTariffId :
  exists c st' w,
    tariffWatch tickerFromCurrency newTariffId st = (c, st', w)
    /\ tariffs st' = tariffs st
    /\ exchangeRates st' = exchangeRates st
    /\ isLoading st' = isLoading st
    /\ tariffId (formValues st') = tariffId (formValues st)
    /\ ((st' = st /\ w = [] /\ (c = Normal tt \/ c = Throw TypeError))
        \/ (c = Normal tt
            /\ w = [WCurrency (currency (formValues st'));
                    WPaymentOptionId (paymentOptionId (formValues st'))])).
Proof.
  destruct (find (fun tariff => JS.id_eq (tariff_id tariff) newTariffId)
                 (tariffs st)) as [T|] eqn:Hfind.
  - destruct (paymentOptions T) as [|first rest] eqn:Hopts.
    + rewrite (tariffWatch_empty _ _ _ _ Hfind Hopts).
      eexists _, _, _. split; [reflexivity|]. auto 10.
    + rewrite (tariffWatch_found _ _ _ _ _ _ Hfind Hopts).
      eexists _, _, _. split; [reflexivity|]. simpl. auto 10.
  - rewrite (tariffWatch_unknown _ _ _ Hfind).
    eexists _, _, _. split; [reflexivity|]. auto 10.
Qed.

(** *** A tariff selection as a whole *)

Lemma tariffIdTransition_found st T first rest :
  find (fun tariff => JS.id_eq (tariff_id tariff) (Some (tariff_id T)))
       (tariffs st) = Some T ->
  paymentOptions T = first :: rest ->
  tariffId (formValues st) <> Some (tariff_id T) ->
  let selectedCurrency := tickerFromCurrency (baseCurrency T) in
  let c := if JS.truthy_string selectedCurrency then selectedCurrency else None in
  let p := if option_id first =? 0 then None else Some (option_id first) in
  tariffIdTransition tickerFromCurrency (Some (tariff_id T)) st
  = (Normal tt,
     {| tariffs := tariffs st; exchangeRates := exchangeRates st;
        isLoading := isLoading st;
        formValues := {| tariffId := Some (tariff_id T);
                         currency := c; paymentOptionId := p |} |},
     [WTariffId (Some (tariff_id T)); WCurrency c; WPaymentOptionId p]).
Proof.
  intros Hfind Hopts Hchanged. rewrite tariffIdTransition_eq. cbv zeta.
  destruct (decide _) as [Hsame | _]; [contradiction|].
  erewrite tariffWatch_found; [reflexivity | exact Hfind | exact Hopts].
Qed.

Lemma tariffWatch_tariffId st newTariffId :
  tariffId (formValues (tariffWatch tickerFromCurrency newTariffId st).1.2)
  = tariffId (formValues st).
Proof.
  destruct (find (fun tariff => JS.id_eq (tariff_id tariff) newTariffId)
                 (tariffs st)) as [T|] eqn:Hfind.
  - destruct (paymentOptions T) as [|first rest] eqn:Hopts.
    + rewrite (tariffWatch_empty _ _ _ _ Hfind Hopts). reflexivity.
    + rewrite (tariffWatch_found _ _ _ _ _ _ Hfind Hopts). reflexivity.
  - rewrite (tariffWatch_unknown _ _ _ Hfind). reflexivity.
Qed.

(** X6.  In a catalogue without repeated ids, once [tariffId] has
    changed to the id of a tariff [T] with at least one payment option:
    [T] is the selected tariff; the period stored is the first one the
    period field now offers, or null when that id is 0; the currency
    stored is the ticker of the base currency the currency field is now
    given, or null when that ticker is missing or empty. *)
Theorem reset_agrees_with_fields st T first rest :
  NoDup (tariff_id <$> tariffs st) ->
  T ∈ tariffs st ->
  paymentOptions T = first :: rest ->
  tariffId (formValues st) <> Some (tariff_id T) ->
  exists st' w,
    tariffIdTransition tickerFromCurrency (Some (tariff_id T)) st
    = (Normal tt, st', w)
    /\ selectedTariff st' = Some T
    /\ head (periodFieldProps st') = Some (option_id first, paymentPeriod first)
    /\ paymentOptionId (formValues st')
       = (if option_id first =? 0 then None else Some (option_id first))
    /\ currency (formValues st')
       = (let ticker := tickerFromCurrency (currencyProps RUB st') in
          if JS.truthy_string ticker then ticker else None).
Proof.
  intros Hnd Hin Hopts Hchanged.
  pose proof (find_by_id _ _ Hnd Hin) as Hfind.
  rewrite (tariffIdTransition_found st T first rest Hfind Hopts Hchanged).
  eexists _, _. split; [reflexivity|].
  assert (Hsel : forall c p,
            selectedTariff
              {| tariffs := tariffs st; exchangeRates := exchangeRates st;
                 isLoading := isLoading st;
                 formValues := {| tariffId := Some (tariff_id T);
                                  currency := c; paymentOptionId := p |} |}
            = Some T) by (intros; exact Hfind).
  unfold periodFieldProps, currencyProps. rewrite !Hsel, Hopts.
  repeat split.
Qed.

(** X7.  Storing the same [tariffId] a second time is silent: whatever
    the first transition did, even if its watcher threw, the second one
    only rewrites [tariffId], ends normally and leaves the state as the
    first left it. *)
Theorem repeated_selection_is_silent st newTariffId :
  exists c st' w,
    tariffIdTransition tickerFromCurrency newTariffId st = (c, st', w)
    /\ tariffIdTransition tickerFromCurrency newTariffId st'
       = (Normal tt, st', [WTariffId newTariffId]).
Proof.
  assert (Hsilent : forall st1,
            tariffId (formValues st1) = newTariffId ->
            tariffIdTransition tickerFromCurrency newTariffId st1
            = (Normal tt, st1, [WTariffId newTariffId])).
  { intros st1 Hid. rewrite tariffIdTransition_eq. cbv zeta.
    destruct (decide _) as [_ | Hne]; [|contradiction].
    destruct st1 as [ts rs l [t c p]]. simpl in *. subst t. reflexivity. }
  rewrite tariffIdTransition_eq. cbv zeta.
  destruct (decide _) as [Hsame | _].
  - eexists _, _, _. split; [reflexivity|]. apply Hsilent. reflexivity.
  - match goal with
    | |- context [tariffWatch _ _ ?s] =>
        pose proof (tariffWatch_tariffId s newTariffId) as Hid;
        destruct (tariffWatch tickerFromCurrency newTariffId s) as [[c st'] w]
    end.
    eexists _, _, _. split; [reflexivity|]. apply Hsilent. exact Hid.
Qed.

(** X8.  While the catalogue is empty (before the data has come, or
    after a failed load), whatever the form holds: no tariff is
    selected, the tariff and period fields are given nothing, the
    currency field is given RUB, the exchange rate, the total and the
    discount are 0, and the watcher writes nothing for any id. *)
Theorem empty_catalog_is_neutral st :
  tariffs st = [] ->
  selectedTariff st = None
  /\ tariffFieldProps st = []
  /\ periodFieldProps st = []
  /\ currencyProps RUB st = RUB
  /\ exchangeRate tickerFromCurrency st = JS.Num 0
  /\ totalAmount tickerFromCurrency st = 0%float
  /\ discount getDiscountForOption st = 0%float
  /\ forall newTariffId,
       tariffWatch tickerFromCurrency newTariffId st = (Normal tt, st, []).
Proof.
  intros Hempty.
  assert (Hsel : selectedTariff st = None).
  { unfold selectedTariff. rewrite Hempty. reflexivity. }
  unfold tariffFieldProps, periodFieldProps, currencyProps, exchangeRate,
    totalAmount, discount.
  rewrite Hsel, Hempty. repeat split.
  intros newTariffId. apply tariffWatch_unknown. rewrite Hempty. reflexivity.
Qed.

(** *** The exchange rate and the amounts *)

(** X9.  With the three selections present, a non-empty ticker for the
    base currency of the selected tariff, and a rates record for that
    ticker that lists the selected currency: [exchangeRate] is the listed
    rate as stored, and when [paymentOptionId] is the id of an option of
    the tariff [totalAmount] is the price of that option times this
    rate, through [toFixed(2)]. *)
Theorem exchangeRate_is_listed_rate st T c p b r rate :
  selectedTariff st = Some T ->
  currency (formValues st) = Some c -> c <> "" ->
  paymentOptionId (formValues st) = Some p -> p <> 0 ->
  tickerFromCurrency (baseCurrency T) = Some b -> b <> "" ->
  find (fun rate => JS.string_eq (base_code rate) (Some b)) (exchangeRates st)
  = Some r ->
  conversion_rates r !! c = Some rate ->
  exchangeRate tickerFromCurrency st = JS.Num rate
  /\ forall selectedOption,
       find (fun option => JS.id_eq (option_id option) (Some p))
            (paymentOptions T) = Some selectedOption ->
       totalAmount tickerFromCurrency st
       = JS.round2 (basePrice selectedOption * rate)%float.
Proof.
  intros Hsel Hc Hc0 Hp Hp0 Hb Hb0 Hfind Hrate.
  assert (Hx : exchangeRate tickerFromCurrency st = JS.Num rate).
  { rewrite (exchangeRate_lookup _ st T c p b r) by assumption.
    rewrite Hrate. reflexivity. }
  split; [exact Hx|]. intros selectedOption Hopt.
  unfold totalAmount. rewrite Hsel, Hp, (truthy_id_Some _ Hp0), Hopt, Hx.
  reflexivity.
Qed.

(** X10.  The exchange rate is decided by the rates table, the selected
    currency, the ticker of the base currency of the selected tariff and
    whether a period is present: two states that agree on these have the
    same rate, whatever their catalogues, prices and period ids. *)
Theorem exchangeRate_depends_only_on st1 st2 T1 T2 :
  selectedTariff st1 = Some T1 ->
  selectedTariff st2 = Some T2 ->
  tickerFromCurrency (baseCurrency T1) = tickerFromCurrency (baseCurrency T2) ->
  exchangeRates st1 = exchangeRates st2 ->
  currency (formValues st1) = currency (formValues st2) ->
  JS.truthy_id (paymentOptionId (formValues st1))
  = JS.truthy_id (paymentOptionId (formValues st2)) ->
  exchangeRate tickerFromCurrency st1 = exchangeRate tickerFromCurrency st2.
Proof.
  intros Hsel1 Hsel2 Hticker Hrates Hcur Hper. unfold exchangeRate.
  rewrite Hsel1, Hsel2, Hticker, Hrates, Hcur, Hper. reflexivity.
Qed.

(** X11.  [discount] is 0 as soon as one selection is absent in the
    sense of [!]: no selected tariff, or a null or zero [tariffId], or a
    null or empty [currency], or a null or zero [paymentOptionId]; and it
    is 0 when the helper gives [undefined], 0 or NaN for the selected
    option. *)
Theorem discount_neutral st :
  (selectedTariff st = None
   \/ JS.truthy_id (tariffId (formValues st)) = false
   \/ JS.truthy_string (currency (formValues st)) = false
   \/ JS.truthy_id (paymentOptionId (formValues st)) = false
   \/ exists T p,
        selectedTariff st = Some T
        /\ paymentOptionId (formValues st) = Some p
        /\ JS.truthy_num (getDiscountForOption (paymentOptions T) p) = false) ->
  discount getDiscountForOption st = 0%float.
Proof.
  unfold discount. cbv zeta.
  intros [Hsel | [Ht | [Hc | [Hp | (T & p & Hsel & Hp & Hdisc)]]]].
  - rewrite Hsel. reflexivity.
  - rewrite Ht, orb_true_r. destruct (selectedTariff st); reflexivity.
  - rewrite Hc, orb_true_r. destruct (selectedTariff st); reflexivity.
  - rewrite Hp. destruct (selectedTariff st); reflexivity.
  - rewrite Hsel, Hp, Hdisc. destruct (_ || _); reflexivity.
Qed.

(** X12.  When the exchange rate is 0 (no currency or period chosen, no
    rates record for the base currency, or a listed rate of 0) the total
    is 0, the prices of the selected tariff being finite numbers. *)
Theorem zero_rate_gives_zero_total st :
  exchangeRate tickerFromCurrency st = JS.Num 0 ->
  (forall T option,
     selectedTariff st = Some T -> option ∈ paymentOptions T ->
     JS.finiteNumber (basePrice option) = true) ->
  totalAmount tickerFromCurrency st = 0%float.
Proof.
  intros Hrate Hfinite. unfold totalAmount.
  destruct (selectedTariff st) as [T|] eqn:Hsel; [|reflexivity].
  destruct (negb _); [reflexivity|].
  destruct (find _ (paymentOptions T)) as [selectedOption|] eqn:Hfind;
    [|reflexivity].
  rewrite Hrate. apply round2_mul_zero, (Hfinite T); [reflexivity|].
  apply find_first in Hfind as (_ & l1 & l2 & -> & _).
  apply elem_of_app. right. apply list_elem_of_here.
Qed.

(** X13.  When the rate is [undefined] the discount shown is NaN,
    whatever the discount itself is, 0 included. *)
Theorem undefined_rate_shows_nan_discount st :
  exchangeRate tickerFromCurrency st = JS.Undefined ->
  displayedDiscount tickerFromCurrency getDiscountForOption st = nan.
Proof.
  intros Hrate. unfold displayedDiscount. rewrite Hrate.
  unfold JS.mul, JS.toNumber. apply mul_nan_r.
Qed.

(** X14.  Right after a tariff selection the currency is the ticker of
    the tariff itself, so the rate is read under that same ticker in the
    rates record of that ticker: it is 0 without such a record,
    [undefined] when the record does not list its own code, the listed
    rate otherwise; the total is the price of the first option times
    that value, through [toFixed(2)]. *)
Theorem rate_after_selection st T first rest b :
  NoDup (tariff_id <$> tariffs st) ->
  T ∈ tariffs st ->
  paymentOptions T = first :: rest ->
  option_id first <> 0 ->
  tickerFromCurrency (baseCurrency T) = Some b -> b <> "" ->
  tariffId (formValues st) <> Some (tariff_id T) ->
  exists st' w,
    tariffIdTransition tickerFromCurrency (Some (tariff_id T)) st
    = (Normal tt, st', w)
    /\ exchangeRate tickerFromCurrency st'
       = match find (fun rate => JS.string_eq (base_code rate) (Some b))
                    (exchangeRates st) with
         | None => JS.Num 0
         | Some r =>
             match conversion_rates r !! b with
             | Some rate => JS.Num rate
             | None => JS.Undefined
             end
         end
    /\ totalAmount tickerFromCurrency st'
       = JS.round2 (JS.mul (basePrice first) (exchangeRate tickerFromCurrency st')).
Proof.
  intros Hnd Hin Hopts Hid Hb Hb0 Hchanged.
  pose proof (find_by_id _ _ Hnd Hin) as Hfind.
  rewrite (tariffIdTransition_found st T first rest Hfind Hopts Hchanged).
  eexists _, _. split; [reflexivity|].
  rewrite Hb, (truthy_string_Some _ Hb0).
  destruct (Z.eqb_spec (option_id first) 0) as [|_]; [contradiction|].
  split.
  - unfold exchangeRate, selectedTariff.
    cbn [formValues tariffs exchangeRates tariffId currency paymentOptionId].
    rewrite Hfind, Hb, (truthy_string_Some _ Hb0), (truthy_id_Some _ Hid).
    reflexivity.
  - unfold totalAmount at 1. unfold selectedTariff.
    cbn [formValues tariffs exchangeRates tariffId currency paymentOptionId].
    rewrite Hfind, Hopts, (truthy_id_Some _ Hid).
    cbn [find JS.id_eq negb]. rewrite Z.eqb_refl. reflexivity.
Qed.

(** X15.  A whole first session: the fetch resolves, the user selects a
    tariff (non-zero id, unique in the catalogue, with options), then one
    of its periods (non-zero id), then a currency that the rates record
    of the base currency of the tariff lists.  Every step ends normally,
    and at the end the spinner is gone, the tariff is the selected one,
    the rate is the listed one, the total is the price of the chosen
    option times that rate through [toFixed(2)], and the form can be
    submitted. *)
Theorem first_session fetchedTariffs fetchedRates T selectedOption p c b r rate :
  NoDup (tariff_id <$> fetchedTariffs) ->
  T ∈ fetchedTariffs ->
  tariff_id T <> 0 ->
  paymentOptions T <> [] ->
  p <> 0 ->
  find (fun option => JS.id_eq (option_id option) (Some p)) (paymentOptions T)
  = Some selectedOption ->
  tickerFromCurrency (baseCurrency T) = Some b -> b <> "" ->
  find (fun rate => JS.string_eq (base_code rate) (Some b)) fetchedRates
  = Some r ->
  c <> "" ->
  conversion_rates r !! c = Some rate ->
  exists st1 w1 st2 w2 st3 w3 st4 w4,
    fetchData (Resolved fetchedTariffs fetchedRates) initial = (Normal tt, st1, w1)
    /\ tariffIdTransition tickerFromCurrency (Some (tariff_id T)) st1
       = (Normal tt, st2, w2)
    /\ periodSelectionHandler (Some p) st2 = (Normal tt, st3, w3)
    /\ currencySelectionHandler c st3 = (Normal tt, st4, w4)
    /\ isLoading st4 = false
    /\ selectedTariff st4 = Some T
    /\ exchangeRate tickerFromCurrency st4 = JS.Num rate
    /\ totalAmount tickerFromCurrency st4
       = JS.round2 (basePrice selectedOption * rate)%float
    /\ JS.truthy (canSubmit st4) = true.
Proof.
  intros Hnd Hin Hid Hopts Hp Hopt Hb Hb0 Hrates Hc Hrate.
  destruct (paymentOptions T) as [|first rest] eqn:Hoptions; [contradiction|].
  pose proof (find_by_id _ _ Hnd Hin) as Hfind.
  rewrite fetchData_resolved.
  eexists _, _. eexists _, _. eexists _, _. eexists _, _.
  split; [reflexivity|]. split.
  { apply (tariffIdTransition_found _ T first rest);
      [exact Hfind | exact Hoptions | discriminate]. }
  split; [reflexivity|]. split; [reflexivity|].
  split; [reflexivity|].
  assert (Hsel : forall l fv',
            tariffId fv' = Some (tariff_id T) ->
            selectedTariff
              {| tariffs := fetchedTariffs; exchangeRates := fetchedRates;
                 isLoading := l; formValues := fv' |} = Some T).
  { intros l fv' Hfv. unfold selectedTariff. simpl. rewrite Hfv. exact Hfind. }
  split; [apply Hsel; reflexivity|].
  assert (Hx : forall st,
            selectedTariff st = Some T ->
            exchangeRates st = fetchedRates ->
            currency (formValues st) = Some c ->
            paymentOptionId (formValues st) = Some p ->
            exchangeRate tickerFromCurrency st = JS.Num rate).
  { intros st Hs Hr Hcur Hper.
    rewrite (exchangeRate_lookup _ st T c p b r); try assumption.
    - rewrite Hrate. reflexivity.
    - rewrite Hr. exact Hrates. }
  split; [apply Hx; try reflexivity; apply Hsel; reflexivity|].
  split.
  - unfold totalAmount. rewrite Hx; try reflexivity; [|apply Hsel; reflexivity].
    rewrite Hsel by reflexivity.
    cbn [formValues paymentOptionId].
    rewrite (truthy_id_Some _ Hp), Hoptions, Hopt. reflexivity.
  - rewrite canSubmit_truthy. cbn [formValues tariffId currency paymentOptionId].
    rewrite (truthy_id_Some _ Hid), (truthy_id_Some _ Hp),
      (truthy_string_Some _ Hc).
    reflexivity.
Qed.

(** X16.  Choosing a currency and choosing a period commute: in either
    order both end normally in the same state, and the selected tariff
    is the one it was. *)
Theorem currency_and_period_commute st c p :
  exists st1 st2 st' w1 w2 w3 w4,
    currencySelectionHandler c st = (Normal tt, st1, w1)
    /\ periodSelectionHandler p st1 = (Normal tt, st', w2)
    /\ periodSelectionHandler p st = (Normal tt, st2, w3)
    /\ currencySelectionHandler c st2 = (Normal tt, st', w4)
    /\ selectedTariff st' = selectedTariff st
    /\ tariffId (formValues st') = tariffId (formValues st)
    /\ currency (formValues st') = Some c
    /\ paymentOptionId (formValues st') = p.
Proof.
  eexists _, _, _, _, _, _, _.
  split; [reflexivity|]. split; [reflexivity|].
  split; [reflexivity|]. split; [reflexivity|]. repeat split.
Qed.

(** X17.  The currency label is empty exactly when no currency is
    selected (null or empty); whenever the form can be submitted it is a
    space followed by the selected code. *)
Theorem amountCurrency_label st :
  (amountCurrency st = ""
   <-> JS.truthy_string (currency (formValues st)) = false)
  /\ (JS.truthy (canSubmit st) = true ->
      exists code,
        currency (formValues st) = Some code
        /\ amountCurrency st = String.append " " code).
Proof.
  split.
  - unfold amountCurrency.
    destruct (currency (formValues st)) as [code|]; [|split; reflexivity].
    destruct (JS.truthy_string (Some code)).
    + split; discriminate.
    + split; reflexivity.
  - rewrite canSubmit_truthy, !andb_true_iff. intros [[_ Hc] _].
    unfold amountCurrency.
    destruct (currency (formValues st)) as [code|]; [|discriminate].
    rewrite Hc. exists code. split; reflexivity.
Qed.

(** X19.  Selecting a tariff that has no payment option (unique id in
    the catalogue): the watcher throws a [TypeError] and only [tariffId]
    has been written.  The tariff is then the selected tariff, the period
    field is given nothing, [currency] and [paymentOptionId] keep their
    earlier values, and the total is 0. *)
Theorem empty_options_selection st T :
  NoDup (tariff_id <$> tariffs st) ->
  T ∈ tariffs st ->
  paymentOptions T = [] ->
  tariffId (formValues st) <> Some (tariff_id T) ->
  exists st',
    tariffIdTransition tickerFromCurrency (Some (tariff_id T)) st
    = (Throw TypeError, st', [WTariffId (Some (tariff_id T))])
    /\ tariffId (formValues st') = Some (tariff_id T)
    /\ currency (formValues st') = currency (formValues st)
    /\ paymentOptionId (formValues st') = paymentOptionId (formValues st)
    /\ selectedTariff st' = Some T
    /\ periodFieldProps st' = []
    /\ totalAmount tickerFromCurrency st' = 0%float.
Proof.
  intros Hnd Hin Hopts Hchanged.
  pose proof (find_by_id _ _ Hnd Hin) as Hfind.
  rewrite tariffIdTransition_eq. cbv zeta.
  destruct (decide _) as [Hsame | _]; [contradiction|].
  erewrite tariffWatch_empty; [| exact Hfind | exact Hopts].
  eexists. split; [reflexivity|].
  cbn [formValues tariffId currency paymentOptionId].
  split; [reflexivity|]. split; [reflexivity|]. split; [reflexivity|].
  assert (Hsel : selectedTariff
            {| tariffs := tariffs st; exchangeRates := exchangeRates st;
               isLoading := isLoading st;
               formValues := {| tariffId := Some (tariff_id T);
                                currency := currency (formValues st);
                                paymentOptionId := paymentOptionId (formValues st) |} |}
          = Some T) by exact Hfind.
  unfold periodFieldProps, totalAmount. rewrite Hsel, Hopts.
  split; [reflexivity|]. split; [reflexivity|].
  destruct (negb _); reflexivity.
Qed.

End Session.

(** X18.  The integer that [toFixed(2)] prints for a finite binary64
    value [m * 2^e] is the integer nearest to a hundred times that value,
    the larger one on a tie: with [n] that integer,
    [n - 1/2 <= 100 * m * 2^e < n + 1/2], the magnitude being taken
    exactly and not as a rounded product. *)
Theorem scaled100_nearest (sign : bool) (m : positive) (e : Z) :
  let n := JS.scaled100 (S754_finite sign m e) in
  2 ^ Z.max 0 (- e) * (2 * n - 1)
  <= 200 * Z.pos m * 2 ^ Z.max 0 e
  < 2 ^ Z.max 0 (- e) * (2 * n + 1).
Proof.
  unfold JS.scaled100. destruct (Z.leb_spec 0 e) as [He | He]; cbv zeta.
  - rewrite (Z.max_l 0 (- e)), (Z.max_r 0 e) by lia.
    change (2 ^ 0) with 1. lia.
  - rewrite (Z.max_r 0 (- e)), (Z.max_l 0 e) by lia.
    change (2 ^ 0) with 1.
    assert (Hd : 0 < 2 ^ (- e)) by (apply Z.pow_pos_nonneg; lia).
    set (d := 2 ^ (- e)) in *.
    pose proof (Z.mul_div_le (200 * Z.pos m + d) (2 * d)) as Hle.
    pose proof (Z.mul_succ_div_gt (200 * Z.pos m + d) (2 * d)) as Hgt.
    set (n := (200 * Z.pos m + d) / (2 * d)) in *.
    lia.
Qed.

(** ** The further properties on the sample data *)

Lemma selectedTariff_is_first_match_witness :
  tariffId (formValues Sample.in_eur) = Some 1
  /\ (1, "Basic"%string) ∈ tariffFieldProps Sample.in_eur
  /\ exists earlier later,
       tariffs Sample.in_eur = earlier ++ Sample.basic :: later
       /\ forall T', T' ∈ earlier -> tariff_id T' <> 1.
Proof.
  exact (selectedTariff_is_first_match Sample.in_eur Sample.basic eq_refl).
Defined.

Lemma selectedTariff_none_iff_witness :
  selectedTariff Sample.stale = None.
Proof.
  apply (proj2 (selectedTariff_none_iff Sample.stale)).
  intros T HT.
  repeat (apply elem_of_cons in HT as [-> | HT]; [discriminate|]).
  inversion HT.
Defined.

Lemma offered_tariff_is_selectable_witness :
  exists st' T,
    tariffSelectionHandler 3 Sample.in_eur = (Normal tt, st', [WTariffId (Some 3)])
    /\ selectedTariff st' = Some T
    /\ tariff_id T = 3
    /\ (NoDup (tariff_id <$> tariffs Sample.in_eur) -> name T = "Zeroth"%string).
Proof.
  apply (offered_tariff_is_selectable Sample.in_eur 3 "Zeroth").
  do 2 apply list_elem_of_further. apply list_elem_of_here.
Defined.

Lemma period_offered_iff_option_found_witness :
  exists period, (10, period) ∈ periodFieldProps Sample.in_eur.
Proof.
  apply (proj2 (period_offered_iff_option_found Sample.in_eur 10)).
  exists Sample.basic, Sample.monthly. split; reflexivity.
Defined.

Lemma reset_agrees_with_fields_witness :
  exists st' w,
    tariffIdTransition Sample.tickerFromCurrency (Some 3) Sample.in_eur
    = (Normal tt, st', w)
    /\ selectedTariff st' = Some Sample.zeroth
    /\ head (periodFieldProps st') = Some (0, Sample.Yearly)
    /\ paymentOptionId (formValues st') = None
    /\ currency (formValues st')
       = (let ticker := Sample.tickerFromCurrency (currencyProps Sample.RUB st') in
          if JS.truthy_string ticker then ticker else None).
Proof.
  apply (reset_agrees_with_fields Sample.tickerFromCurrency Sample.RUB
           Sample.in_eur Sample.zeroth
           {| option_id := 0; basePrice := 5; paymentPeriod := Sample.Yearly |}
           []).
  - apply (bool_decide_unpack _). vm_compute. reflexivity.
  - do 2 apply list_elem_of_further. apply list_elem_of_here.
  - reflexivity.
  - discriminate.
Defined.

(** The state a rejected fetch leaves, with a form filled by hand. *)
Lemma empty_catalog_is_neutral_witness :
  let st :=
    {| tariffs := tariffs (fetchData (Rejected "offline") initial).1.2;
       exchangeRates := [Sample.usd_rates]; isLoading := false;
       formValues := Sample.form (Some 1) (Some "EUR") (Some 10) |} in
  selectedTariff st = None
  /\ tariffFieldProps st = []
  /\ periodFieldProps st = []
  /\ currencyProps Sample.RUB st = Sample.RUB
  /\ exchangeRate Sample.tickerFromCurrency st = JS.Num 0
  /\ totalAmount Sample.tickerFromCurrency st = 0%float
  /\ discount Sample.getDiscountForOption st = 0%float
  /\ forall newTariffId,
       tariffWatch Sample.tickerFromCurrency newTariffId st = (Normal tt, st, []).
Proof.
  intros st.
  exact (empty_catalog_is_neutral Sample.tickerFromCurrency
           Sample.getDiscountForOption Sample.RUB st eq_refl).
Defined.

Lemma exchangeRate_is_listed_rate_witness :
  exchangeRate Sample.tickerFromCurrency Sample.in_eur = JS.Num 0.9
  /\ forall selectedOption,
       find (fun option => JS.id_eq (option_id option) (Some 10))
            (paymentOptions Sample.basic) = Some selectedOption ->
       totalAmount Sample.tickerFromCurrency Sample.in_eur
       = JS.round2 (basePrice selectedOption * 0.9)%float.
Proof.
  apply (exchangeRate_is_listed_rate Sample.tickerFromCurrency Sample.in_eur
           Sample.basic "EUR" 10 "USD" Sample.usd_rates 0.9).
  - reflexivity.
  - reflexivity.
  - discriminate.
  - reflexivity.
  - lia.
  - reflexivity.
  - discriminate.
  - reflexivity.
  - vm_compute. reflexivity.
Defined.

Lemma exchangeRate_depends_only_on_witness :
  exchangeRate Sample.tickerFromCurrency Sample.in_eur
  = exchangeRate Sample.tickerFromCurrency
      {| tariffs := [Sample.basic]; exchangeRates := [Sample.usd_rates];
         isLoading := true;
         formValues := Sample.form (Some 1) (Some "EUR") (Some 77) |}.
Proof.
  apply (exchangeRate_depends_only_on Sample.tickerFromCurrency _ _
           Sample.basic Sample.basic); reflexivity.
Defined.

Lemma discount_neutral_witness :
  discount Sample.getDiscountForOption Sample.zero_tariff = 0%float.
Proof.
  apply (discount_neutral Sample.getDiscountForOption Sample.zero_tariff).
  right. left. reflexivity.
Defined.

(** Tariff 1 and its option 10 with no currency chosen. *)
Lemma zero_rate_gives_zero_total_witness :
  totalAmount Sample.tickerFromCurrency
    (Sample.loaded (Sample.form (Some 1) None (Some 10))) = 0%float.
Proof.
  apply (zero_rate_gives_zero_total Sample.tickerFromCurrency).
  - reflexivity.
  - intros T option [= <-] Hin.
    apply list_elem_of_singleton in Hin as ->. vm_compute. reflexivity.
Defined.

Lemma undefined_rate_shows_nan_discount_witness :
  displayedDiscount Sample.tickerFromCurrency Sample.getDiscountForOption
    Sample.in_rub = nan.
Proof.
  apply (undefined_rate_shows_nan_discount Sample.tickerFromCurrency
           Sample.getDiscountForOption Sample.in_rub).
  vm_compute. reflexivity.
Defined.

(** The sample rates record for USD does not list USD: right after the
    sample tariff is selected the rate is [undefined]. *)
Lemma rate_after_selection_witness :
  exists st' w,
    tariffIdTransition Sample.tickerFromCurrency (Some 1) Sample.fresh
    = (Normal tt, st', w)
    /\ exchangeRate Sample.tickerFromCurrency st' = JS.Undefined
    /\ totalAmount Sample.tickerFromCurrency st'
       = JS.round2 (JS.mul 9.99 (exchangeRate Sample.tickerFromCurrency st')).
Proof.
  destruct (rate_after_selection Sample.tickerFromCurrency Sample.fresh
              Sample.basic Sample.monthly [] "USD") as (st' & w & Hrun & Hrate & Htotal).
  - apply (bool_decide_unpack _). vm_compute. reflexivity.
  - apply list_elem_of_here.
  - reflexivity.
  - simpl. lia.
  - reflexivity.
  - discriminate.
  - discriminate.
  - exists st', w. split; [exact Hrun|]. split; [|exact Htotal].
    rewrite Hrate. vm_compute. reflexivity.
Defined.

Lemma first_session_witness :
  exists st1 w1 st2 w2 st3 w3 st4 w4,
    fetchData (Resolved [Sample.basic; Sample.bare; Sample.zeroth]
                        [Sample.usd_rates]) initial = (Normal tt, st1, w1)
    /\ tariffIdTransition Sample.tickerFromCurrency (Some 1) st1
       = (Normal tt, st2, w2)
    /\ periodSelectionHandler (Some 10) st2 = (Normal tt, st3, w3)
    /\ currencySelectionHandler "EUR" st3 = (Normal tt, st4, w4)
    /\ isLoading st4 = false
    /\ selectedTariff st4 = Some Sample.basic
    /\ exchangeRate Sample.tickerFromCurrency st4 = JS.Num 0.9
    /\ totalAmount Sample.tickerFromCurrency st4
       = JS.round2 (9.99 * 0.9)%float
    /\ JS.truthy (canSubmit st4) = true.
Proof.
  apply (first_session Sample.tickerFromCurrency
           [Sample.basic; Sample.bare; Sample.zeroth] [Sample.usd_rates]
           Sample.basic Sample.monthly 10 "EUR" "USD" Sample.usd_rates 0.9).
  - apply (bool_decide_unpack _). vm_compute. reflexivity.
  - apply list_elem_of_here.
  - simpl. lia.
  - discriminate.
  - lia.
  - reflexivity.
  - reflexivity.
  - discriminate.
  - reflexivity.
  - discriminate.
  - vm_compute. reflexivity.
Defined.

Lemma amountCurrency_label_witness :
  exists code,
    currency (formValues Sample.in_eur) = Some code
    /\ amountCurrency Sample.in_eur = String.append " " code.
Proof.
  apply (proj2 (amountCurrency_label Sample.in_eur)). reflexivity.
Defined.

Lemma empty_options_selection_witness :
  exists st',
    tariffIdTransition Sample.tickerFromCurrency (Some 2) Sample.in_eur
    = (Throw TypeError, st', [WTariffId (Some 2)])
    /\ tariffId (formValues st') = Some 2
    /\ currency (formValues st') = Some "EUR"%string
    /\ paymentOptionId (formValues st') = Some 10
    /\ selectedTariff st' = Some Sample.bare
    /\ periodFieldProps st' = []
    /\ totalAmount Sample.tickerFromCurrency st' = 0%float.
Proof.
  apply (empty_options_selection Sample.tickerFromCurrency Sample.in_eur
           Sample.bare).
  - apply (bool_decide_unpack _). vm_compute. reflexivity.
  - apply list_elem_of_further, list_elem_of_here.
  - reflexivity.
  - discriminate.
Defined.
